(** * Technology scripting binding (gsiDeclDbTechnologies.cc) and the
      QHoverEvent adaptor (gsiDeclQHoverEvent.cc)

    A shallow embedding of the forwarding functions of the [gsi] namespace
    declared in [src/db/db/gsiDeclDbTechnologies.cc] and of the virtual
    method overrides of [QHoverEvent_Adaptor] in
    [src/gsiqt/qt6/QtGui/gsiDeclQHoverEvent.cc].

    A C++ [double] is a binary64 primitive float, a [std::string] is a
    [string], a [std::vector] is a [list], a pointer that may be null is an
    [option].  Functions that mutate the object behind a pointer take the
    object and return its new value; functions on the process-wide registry
    thread the registry state and may end in a thrown exception. *)

From Stdlib Require Import List String Ascii ZArith Bool Lia.
From Stdlib Require Import Floats.PrimFloat Floats.SpecFloat Floats.FloatOps.
Import ListNotations.

Set Warnings "-inexact-float".
Open Scope string_scope.

(** ** Strings *)

Module Str.

(** [std::string::empty] *)
Definition empty (s : string) : bool :=
  match s with
  | EmptyString => true
  | String _ _ => false
  end.

(** Number of occurrences of the character [c] in [s]. *)
Fixpoint count (c : ascii) (s : string) : nat :=
  match s with
  | EmptyString => 0
  | String a s' => (if Ascii.eqb a c then 1 else 0) + count c s'
  end.

End Str.

(** ** The technology record

    Modelled from the spec: the class [db::Technology] (dbTechnology.h) is
    not among the sources.  The record holds the attributes the spec lists
    for it and that the scripting declarations reach through plain getters
    and setters: name, description, group, explicit and default base path,
    database unit, the default-grid text, the layer-properties file and the
    add-other-layers flag. *)

Record Technology : Type := mkTechnology {
  name : string;
  description : string;
  group : string;
  explicit_base_path : string;
  default_base_path : string;
  dbu : float;
  default_grids : string;
  layer_properties_file : string;
  add_other_layers : bool
}.

(** Modelled from the spec: [db::Technology::set_name] stores the name. *)
Definition set_name (n : string) (t : Technology) : Technology :=
  mkTechnology n (description t) (group t) (explicit_base_path t)
    (default_base_path t) (dbu t) (default_grids t)
    (layer_properties_file t) (add_other_layers t).

(** Modelled from the spec: [db::Technology::set_default_grids] stores the
    textual encoding of the grid list on the record. *)
Definition set_default_grids (r : string) (t : Technology) : Technology :=
  mkTechnology (name t) (description t) (group t) (explicit_base_path t)
    (default_base_path t) (dbu t) r
    (layer_properties_file t) (add_other_layers t).

(** The default constructor [db::Technology::Technology ()] is declared
    outside the sources: the record a declaration [db::Technology tech;]
    creates is a parameter. *)
Class TechnologyCtor : Type := {
  Technology_new : Technology
}.

(** ** Exceptions

    A function of the binding either returns or is left by a [tl::Exception]
    thrown by a collaborator. *)
Inductive Outcome (A : Type) : Type :=
| Returned (a : A)
| Thrown.

Arguments Returned {A} a.
Arguments Thrown {A}.

(** ** Collaborators declared outside the sources *)

Module tl.

(** [tl::micron_to_string] (tlString.h). *)
Class MicronFormat : Type := {
  micron_to_string : float -> string
}.

(** What [tl::XMLStruct<db::Technology>] is built from in this file: the
    element table [db::Technology::xml_elements ()], as the text it renders
    for the children of the root element, and the parser of a document with
    a given root element name into an existing record. *)
Class XMLElementList : Type := {
  write_elements : Technology -> string;
  parse : string -> string -> Technology -> Outcome Technology
}.

(** Modelled from the spec: [tl::XMLStruct::write] is not among the sources.
    It renders the record under the root element of the given name, the
    children being those of the element table. *)
Definition write `{XMLElementList} (root : string) (t : Technology) : string :=
  "<" ++ root ++ ">" ++ write_elements t ++ "</" ++ root ++ ">".

End tl.

Module db.

(** [db::coord_traits<db::DCoord>::equals] (dbTypes.h); [db::DCoord] is
    [double]. *)
Class coord_traits : Type := {
  equals : float -> float -> bool
}.

(** The interface of [db::Technologies] (dbTechnology.h) the binding calls
    on [db::Technologies::instance ()].  [Reg] is the state of the registry,
    [Ptr] a [db::Technology *]; [elements] are the records between
    [begin ()] and [end ()]. *)
Class Technologies (Reg Ptr : Type) : Type := {
  elements : Reg -> list Technology;
  technology_by_name : Reg -> string -> Ptr;
  add_new : Reg -> Technology -> Outcome Ptr * Reg;
  remove : Reg -> string -> Reg;
  has_technology : Reg -> string -> bool;
  clear : Reg -> Reg
}.

End db.

(** ** The grid-list encoder (gsiDeclDbTechnologies.cc, lines 138-158) *)

(** One turn of the loop of [set_default_grid_list2]: [r] is the text built
    so far, [g] the grid value the iterator points to. *)
Definition append_grid `{tl.MicronFormat} `{db.coord_traits}
    (default_grid : float) (r : string) (g : float) : string :=
  let r := if negb (Str.empty r) then r ++ "," else r in
  let r := r ++ tl.micron_to_string g in
  if db.equals g default_grid then r ++ "!" else r.

Definition set_default_grid_list2 `{tl.MicronFormat} `{db.coord_traits}
    (tech : Technology) (grids : list float) (default_grid : float) : Technology :=
  let r := fold_left (append_grid default_grid) grids "" in
  set_default_grids r tech.

Definition set_default_grid_list `{tl.MicronFormat} `{db.coord_traits}
    (tech : Technology) (grids : list float) : Technology :=
  set_default_grid_list2 tech grids 0%float.

(** *** The encoding as the specification words it *)

(** The text of one entry: the micron text of the value, directly followed
    by the marker when the value compares equal to the default grid. *)
Definition grid_entry `{tl.MicronFormat} `{db.coord_traits}
    (default_grid g : float) : string :=
  tl.micron_to_string g ++ (if db.equals g default_grid then "!" else "").

(** The comma-separated list of the entries, in the order of [grids]. *)
Definition encode `{tl.MicronFormat} `{db.coord_traits}
    (grids : list float) (default_grid : float) : string :=
  String.concat "," (map (grid_entry default_grid) grids).

(** The entries of [grids] that compare equal to [default_grid]. *)
Definition flagged `{db.coord_traits}
    (default_grid : float) (grids : list float) : list float :=
  filter (fun g => db.equals g default_grid) grids.

(** The number of marker characters in an encoded grid list. *)
Definition markers (r : string) : nat := Str.count "!"%char r.

(** ** The registry functions (gsiDeclDbTechnologies.cc, lines 32-81)

    [db::Technologies::instance ()] is the registry state [reg] that every
    function takes; a function that changes the registry returns its new
    state. *)

Module gsi.

(** [gsi::Callback] (gsiCallbacks.h) is declared outside the sources.  [Cb]
    is the callback slot, [X] the class of the object whose method the
    script reimplements.  The three instances of the template [issue] the
    adaptor uses are: a const method returning [bool], a method taking a
    [bool] and a method taking a [quint64], both returning [void]; each gets
    the member function that stands for the base implementation. *)
Class Callback (Cb X : Type) : Type := {
  can_issue : Cb -> bool;
  issue_r_bool : Cb -> (X -> bool) -> X -> bool;
  issue_v_bool : Cb -> (bool -> X -> X) -> bool -> X -> X;
  issue_v_quint64 : Cb -> (N -> X -> X) -> N -> X -> X
}.

Definition technology_names {Reg Ptr : Type} `{db.Technologies Reg Ptr}
    (reg : Reg) : list string :=
  fold_left (fun names t => (names ++ [name t])%list) (db.elements reg) [].

Definition technology_by_name {Reg Ptr : Type} `{db.Technologies Reg Ptr}
    (reg : Reg) (n : string) : Ptr :=
  db.technology_by_name reg n.

Definition create_technology {Reg Ptr : Type} `{TechnologyCtor} `{db.Technologies Reg Ptr}
    (reg : Reg) (n : string) : Outcome Ptr * Reg :=
  let tech := Technology_new in
  let tech := set_name n tech in
  db.add_new reg tech.

Definition register_technology {Reg Ptr : Type} `{db.Technologies Reg Ptr}
    (reg : Reg) (tech : Technology) : Outcome Ptr * Reg :=
  db.add_new reg tech.

Definition remove_technology {Reg Ptr : Type} `{db.Technologies Reg Ptr}
    (reg : Reg) (n : string) : Reg :=
  db.remove reg n.

Definition has_technology {Reg Ptr : Type} `{db.Technologies Reg Ptr}
    (reg : Reg) (n : string) : bool :=
  db.has_technology reg n.

Definition clear_technologies {Reg Ptr : Type} `{db.Technologies Reg Ptr}
    (reg : Reg) : Reg :=
  db.clear reg.

(** *** The XML functions (lines 83-103) *)

Definition technology_from_xml `{TechnologyCtor} `{tl.XMLElementList}
    (s : string) : Outcome Technology :=
  let tech := Technology_new in
  tl.parse "technology" s tech.

(** The argument is a [const db::Technology *]: [None] is the null
    pointer. *)
Definition technology_to_xml `{tl.XMLElementList}
    (tech : option Technology) : string :=
  match tech with
  | None => ""
  | Some t => tl.write "technology" t
  end.

End gsi.

(** ** The registry

    Modelled from the spec: the class [db::Technologies] (dbTechnology.h and
    dbTechnology.cc) is not among the sources.  The registry is the ordered
    collection of the registered records, keyed by their names.  A
    [db::Technology *] into the registry is null ([None]) or the position of
    a stored record. *)

Module Registry.

Definition t : Type := list Technology.

Definition Ptr : Type := option nat.

(** The record a pointer refers to. *)
Definition deref (reg : t) (p : Ptr) : option Technology :=
  match p with
  | None => None
  | Some i => nth_error reg i
  end.

Definition named (n : string) (tech : Technology) : bool :=
  String.eqb (name tech) n.

(** [names ()]: iteration is in the registry's internal order. *)
Definition elements (reg : t) : list Technology := reg.

(** [exists (name)]. *)
Definition has_technology (reg : t) (n : string) : bool :=
  existsb (named n) reg.

(** [byName (name)]: the registered record, or null if there is none. *)
Fixpoint technology_by_name (reg : t) (n : string) : Ptr :=
  match reg with
  | [] => None
  | tech :: reg' =>
      if named n tech then Some 0
      else option_map S (technology_by_name reg' n)
  end.

(** [register (record)]: a copy of the record is inserted under its own
    name and a reference to the stored copy is returned; a name that is
    already present is a failure signalled to the caller. *)
Definition add_new (reg : t) (tech : Technology) : Outcome Ptr * t :=
  if has_technology reg (name tech) then (Thrown, reg)
  else (Returned (Some (List.length reg)), (reg ++ [tech])%list).

(** [remove (name)]: deletes the entry of that name; the spec leaves the
    case of an absent name to the registry, here nothing happens. *)
Fixpoint remove (reg : t) (n : string) : t :=
  match reg with
  | [] => []
  | tech :: reg' => if named n tech then reg' else tech :: remove reg' n
  end.

(** [clear ()]: empties the registry entirely. *)
Definition clear (reg : t) : t := [].

(** Name uniqueness, which the registry enforces. *)
Definition wf (reg : t) : Prop := NoDup (map name reg).

#[global] Instance technologies : db.Technologies t Ptr := {
  db.elements := elements;
  db.technology_by_name := technology_by_name;
  db.add_new := add_new;
  db.remove := remove;
  db.has_technology := has_technology;
  db.clear := clear
}.

End Registry.

(** ** The hover event adaptor (gsiDeclQHoverEvent.cc, lines 143-247) *)

Module QHoverEvent.

(** The five virtual methods of the toolkit class [QHoverEvent] that the
    adaptor overrides; [Ev] is the state of a [QHoverEvent] object.  A
    [quint64] is an [N] below [2^64]; the adaptor hands it on unchanged. *)
Class methods (Ev : Type) : Type := {
  isBeginEvent : Ev -> bool;
  isEndEvent : Ev -> bool;
  isUpdateEvent : Ev -> bool;
  setAccepted : bool -> Ev -> Ev;
  setTimestamp : N -> Ev -> Ev
}.

End QHoverEvent.

Module QHoverEvent_Adaptor.

(** The object: the [QHoverEvent] base subobject and the five callback
    slots. *)
Record t (Ev Cb : Type) : Type := mk {
  base : Ev;
  cb_isBeginEvent_c0_0 : Cb;
  cb_isEndEvent_c0_0 : Cb;
  cb_isUpdateEvent_c0_0 : Cb;
  cb_setAccepted_864_0 : Cb;
  cb_setTimestamp_1103_0 : Cb
}.

Arguments mk {Ev Cb}.
Arguments base {Ev Cb}.
Arguments cb_isBeginEvent_c0_0 {Ev Cb}.
Arguments cb_isEndEvent_c0_0 {Ev Cb}.
Arguments cb_isUpdateEvent_c0_0 {Ev Cb}.
Arguments cb_setAccepted_864_0 {Ev Cb}.
Arguments cb_setTimestamp_1103_0 {Ev Cb}.

(** A call of a non-const base method on [this]: it acts on the base
    subobject and leaves the slots alone. *)
Definition on_base {Ev Cb : Type} (f : Ev -> Ev) (this : t Ev Cb) : t Ev Cb :=
  mk (f (base this)) (cb_isBeginEvent_c0_0 this) (cb_isEndEvent_c0_0 this)
     (cb_isUpdateEvent_c0_0 this) (cb_setAccepted_864_0 this)
     (cb_setTimestamp_1103_0 this).

Definition cbs_isBeginEvent_c0_0 {Ev Cb : Type} `{QHoverEvent.methods Ev}
    (this : t Ev Cb) : bool :=
  QHoverEvent.isBeginEvent (base this).

Definition isBeginEvent {Ev Cb : Type} `{QHoverEvent.methods Ev} `{gsi.Callback Cb (t Ev Cb)}
    (this : t Ev Cb) : bool :=
  if gsi.can_issue (cb_isBeginEvent_c0_0 this) then
    gsi.issue_r_bool (cb_isBeginEvent_c0_0 this) cbs_isBeginEvent_c0_0 this
  else
    QHoverEvent.isBeginEvent (base this).

Definition cbs_isEndEvent_c0_0 {Ev Cb : Type} `{QHoverEvent.methods Ev}
    (this : t Ev Cb) : bool :=
  QHoverEvent.isEndEvent (base this).

Definition isEndEvent {Ev Cb : Type} `{QHoverEvent.methods Ev} `{gsi.Callback Cb (t Ev Cb)}
    (this : t Ev Cb) : bool :=
  if gsi.can_issue (cb_isEndEvent_c0_0 this) then
    gsi.issue_r_bool (cb_isEndEvent_c0_0 this) cbs_isEndEvent_c0_0 this
  else
    QHoverEvent.isEndEvent (base this).

Definition cbs_isUpdateEvent_c0_0 {Ev Cb : Type} `{QHoverEvent.methods Ev}
    (this : t Ev Cb) : bool :=
  QHoverEvent.isUpdateEvent (base this).

Definition isUpdateEvent {Ev Cb : Type} `{QHoverEvent.methods Ev} `{gsi.Callback Cb (t Ev Cb)}
    (this : t Ev Cb) : bool :=
  if gsi.can_issue (cb_isUpdateEvent_c0_0 this) then
    gsi.issue_r_bool (cb_isUpdateEvent_c0_0 this) cbs_isUpdateEvent_c0_0 this
  else
    QHoverEvent.isUpdateEvent (base this).

Definition cbs_setAccepted_864_0 {Ev Cb : Type} `{QHoverEvent.methods Ev}
    (accepted : bool) (this : t Ev Cb) : t Ev Cb :=
  on_base (QHoverEvent.setAccepted accepted) this.

Definition setAccepted {Ev Cb : Type} `{QHoverEvent.methods Ev} `{gsi.Callback Cb (t Ev Cb)}
    (accepted : bool) (this : t Ev Cb) : t Ev Cb :=
  if gsi.can_issue (cb_setAccepted_864_0 this) then
    gsi.issue_v_bool (cb_setAccepted_864_0 this) cbs_setAccepted_864_0 accepted this
  else
    on_base (QHoverEvent.setAccepted accepted) this.

Definition cbs_setTimestamp_1103_0 {Ev Cb : Type} `{QHoverEvent.methods Ev}
    (timestamp : N) (this : t Ev Cb) : t Ev Cb :=
  on_base (QHoverEvent.setTimestamp timestamp) this.

Definition setTimestamp {Ev Cb : Type} `{QHoverEvent.methods Ev} `{gsi.Callback Cb (t Ev Cb)}
    (timestamp : N) (this : t Ev Cb) : t Ev Cb :=
  if gsi.can_issue (cb_setTimestamp_1103_0 this) then
    gsi.issue_v_quint64 (cb_setTimestamp_1103_0 this) cbs_setTimestamp_1103_0 timestamp this
  else
    on_base (QHoverEvent.setTimestamp timestamp) this.

End QHoverEvent_Adaptor.

(** ** Concrete collaborators

    The statements below hold for every choice of the collaborators that
    are declared outside the sources.  The examples need one choice of
    them. *)

Module Sample.

Definition digit (d : Z) : ascii := ascii_of_N (48 + Z.to_N d).

(** The decimal digits of [n], most significant first, before [acc]. *)
Fixpoint digits (fuel : nat) (n : Z) (acc : string) : string :=
  match fuel with
  | O => acc
  | S fuel' =>
      let acc' := String (digit (n mod 10)) acc in
      if (n / 10 =? 0)%Z then acc' else digits fuel' (n / 10) acc'
  end.

Definition decimal (n : Z) : string :=
  digits (S (Z.to_nat (Z.log2 n))) n "".

(** The [k] lowest decimal digits of [n], before [acc]. *)
Fixpoint fraction (k : nat) (n : Z) (acc : string) : string :=
  match k with
  | O => acc
  | S k' => fraction k' (n / 10) (String (digit (n mod 10)) acc)
  end.

(** [num / den] rounded to the nearest integer, ties to even. *)
Definition round_half_even (num den : Z) : Z :=
  let q := (num / den)%Z in
  let r := (num mod den)%Z in
  if (2 * r <? den)%Z then q
  else if ((2 * r =? den) && Z.even q)%Z then q
  else (q + 1)%Z.

(** [m * 2^e * 10^5] rounded to an integer. *)
Definition scaled (m : positive) (e : Z) : Z :=
  if (0 <=? e)%Z then (Zpos m * 2 ^ e * 100000)%Z
  else round_half_even (Zpos m * 100000) (2 ^ (- e)).

(** Modelled from the spec: [tl::micron_to_string] is not among the
    sources.  The spec asks for a fixed decimal representation that is not
    the general floating-point format: the value is written in fixed-point
    notation with five digits after the decimal point. *)
Definition micron_to_string (x : float) : string :=
  match Prim2SF x with
  | S754_nan => "nan"
  | S754_infinity s => if s then "-inf" else "inf"
  | S754_zero s => (if s then "-" else "") ++ "0.00000"
  | S754_finite s m e =>
      let n := scaled m e in
      (if s then "-" else "") ++
      decimal (n / 100000) ++ "." ++ fraction 5 (n mod 100000) ""
  end.

(** Modelled from the spec: [db::coord_traits<db::DCoord>::equals] is not
    among the sources.  The spec asks for a tolerance-aware comparison that
    is not the bit-exact equality: two values are equal when they differ by
    less than [1e-5]. *)
Definition equals (a b : float) : bool :=
  (abs (a - b) <? 1e-5)%float.

#[export] Instance micron_format : tl.MicronFormat := {
  tl.micron_to_string := micron_to_string
}.

#[export] Instance coord : db.coord_traits := {
  db.equals := equals
}.

(** A freshly constructed record: nothing is set. *)
#[export] Instance ctor : TechnologyCtor := {
  Technology_new := mkTechnology "" "" "" "" "" 0.001%float "" "" true
}.

(** A hover event, reduced to what the five methods read and write. *)
Inductive HoverType : Type := HoverEnter | HoverLeave | HoverMove.

Record Event : Type := mkEvent {
  type : HoverType;
  m_accept : bool;
  m_timestamp : N
}.

#[export] Instance hover : QHoverEvent.methods Event := {
  QHoverEvent.isBeginEvent e :=
    match type e with HoverEnter => true | _ => false end;
  QHoverEvent.isEndEvent e :=
    match type e with HoverLeave => true | _ => false end;
  QHoverEvent.isUpdateEvent e :=
    match type e with HoverMove => true | _ => false end;
  QHoverEvent.setAccepted accepted e := mkEvent (type e) accepted (m_timestamp e);
  QHoverEvent.setTimestamp timestamp e := mkEvent (type e) (m_accept e) timestamp
}.

(** A callback slot: empty, or bound to a script method that answers a
    fixed value and ignores what it is told to set, or bound to a script
    method that calls the base implementation. *)
Inductive Slot : Type := Empty | Answers (b : bool) | CallsBase.

#[export] Instance callback (X : Type) : gsi.Callback Slot X := {
  gsi.can_issue cb := match cb with Empty => false | _ => true end;
  gsi.issue_r_bool cb f this :=
    match cb with Answers b => b | _ => f this end;
  gsi.issue_v_bool cb f a this :=
    match cb with Answers _ => this | _ => f a this end;
  gsi.issue_v_quint64 cb f a this :=
    match cb with Answers _ => this | _ => f a this end
}.

(** A registry with two records. *)
Definition registry : Registry.t :=
  [ set_name "A" Technology_new;
    set_default_grids "0.00100,0.00500!" (set_name "B" Technology_new) ].

(** An adaptor object without script callbacks. *)
Definition plain_adaptor : QHoverEvent_Adaptor.t Event Slot :=
  QHoverEvent_Adaptor.mk (mkEvent HoverEnter false 0) Empty Empty Empty Empty Empty.

(** An adaptor object whose script reimplements every method. *)
Definition scripted_adaptor : QHoverEvent_Adaptor.t Event Slot :=
  QHoverEvent_Adaptor.mk (mkEvent HoverEnter false 0)
    (Answers false) CallsBase (Answers true) (Answers true) CallsBase.

End Sample.

(** ** The callback setters (gsiDeclQHoverEvent.cc, lines 294-383)

    The binding installs a script reimplementation of a virtual method by
    assigning the callback slot of that method; [cls] is the adaptor
    object. *)

Definition _set_callback_cbs_isBeginEvent_c0_0 {Ev Cb : Type}
    (cls : QHoverEvent_Adaptor.t Ev Cb) (cb : Cb) : QHoverEvent_Adaptor.t Ev Cb :=
  QHoverEvent_Adaptor.mk (QHoverEvent_Adaptor.base cls)
    cb
    (QHoverEvent_Adaptor.cb_isEndEvent_c0_0 cls)
    (QHoverEvent_Adaptor.cb_isUpdateEvent_c0_0 cls)
    (QHoverEvent_Adaptor.cb_setAccepted_864_0 cls)
    (QHoverEvent_Adaptor.cb_setTimestamp_1103_0 cls).

Definition _set_callback_cbs_isEndEvent_c0_0 {Ev Cb : Type}
    (cls : QHoverEvent_Adaptor.t Ev Cb) (cb : Cb) : QHoverEvent_Adaptor.t Ev Cb :=
  QHoverEvent_Adaptor.mk (QHoverEvent_Adaptor.base cls)
    (QHoverEvent_Adaptor.cb_isBeginEvent_c0_0 cls)
    cb
    (QHoverEvent_Adaptor.cb_isUpdateEvent_c0_0 cls)
    (QHoverEvent_Adaptor.cb_setAccepted_864_0 cls)
    (QHoverEvent_Adaptor.cb_setTimestamp_1103_0 cls).

Definition _set_callback_cbs_isUpdateEvent_c0_0 {Ev Cb : Type}
    (cls : QHoverEvent_Adaptor.t Ev Cb) (cb : Cb) : QHoverEvent_Adaptor.t Ev Cb :=
  QHoverEvent_Adaptor.mk (QHoverEvent_Adaptor.base cls)
    (QHoverEvent_Adaptor.cb_isBeginEvent_c0_0 cls)
    (QHoverEvent_Adaptor.cb_isEndEvent_c0_0 cls)
    cb
    (QHoverEvent_Adaptor.cb_setAccepted_864_0 cls)
    (QHoverEvent_Adaptor.cb_setTimestamp_1103_0 cls).

Definition _set_callback_cbs_setAccepted_864_0 {Ev Cb : Type}
    (cls : QHoverEvent_Adaptor.t Ev Cb) (cb : Cb) : QHoverEvent_Adaptor.t Ev Cb :=
  QHoverEvent_Adaptor.mk (QHoverEvent_Adaptor.base cls)
    (QHoverEvent_Adaptor.cb_isBeginEvent_c0_0 cls)
    (QHoverEvent_Adaptor.cb_isEndEvent_c0_0 cls)
    (QHoverEvent_Adaptor.cb_isUpdateEvent_c0_0 cls)
    cb
    (QHoverEvent_Adaptor.cb_setTimestamp_1103_0 cls).

Definition _set_callback_cbs_setTimestamp_1103_0 {Ev Cb : Type}
    (cls : QHoverEvent_Adaptor.t Ev Cb) (cb : Cb) : QHoverEvent_Adaptor.t Ev Cb :=
  QHoverEvent_Adaptor.mk (QHoverEvent_Adaptor.base cls)
    (QHoverEvent_Adaptor.cb_isBeginEvent_c0_0 cls)
    (QHoverEvent_Adaptor.cb_isEndEvent_c0_0 cls)
    (QHoverEvent_Adaptor.cb_isUpdateEvent_c0_0 cls)
    (QHoverEvent_Adaptor.cb_setAccepted_864_0 cls)
    cb.

(** *** Calls of the virtual methods

    To speak of all five methods, and of sequences of calls, at once. *)

Module Virtual.

(** The five virtual methods. *)
Inductive Method : Type :=
| isBeginEvent | isEndEvent | isUpdateEvent | setAccepted | setTimestamp.

(** A call of one of them, with its argument. *)
Inductive Call : Type :=
| IsBeginEvent
| IsEndEvent
| IsUpdateEvent
| SetAccepted (accepted : bool)
| SetTimestamp (timestamp : N).

Definition method_of (c : Call) : Method :=
  match c with
  | IsBeginEvent => isBeginEvent
  | IsEndEvent => isEndEvent
  | IsUpdateEvent => isUpdateEvent
  | SetAccepted _ => setAccepted
  | SetTimestamp _ => setTimestamp
  end.

(** The callback slot of a method. *)
Definition slot {Ev Cb : Type} (m : Method) (this : QHoverEvent_Adaptor.t Ev Cb) : Cb :=
  match m with
  | isBeginEvent => QHoverEvent_Adaptor.cb_isBeginEvent_c0_0 this
  | isEndEvent => QHoverEvent_Adaptor.cb_isEndEvent_c0_0 this
  | isUpdateEvent => QHoverEvent_Adaptor.cb_isUpdateEvent_c0_0 this
  | setAccepted => QHoverEvent_Adaptor.cb_setAccepted_864_0 this
  | setTimestamp => QHoverEvent_Adaptor.cb_setTimestamp_1103_0 this
  end.

(** The setter of the callback slot of a method. *)
Definition set_callback {Ev Cb : Type} (m : Method)
    (cls : QHoverEvent_Adaptor.t Ev Cb) (cb : Cb) : QHoverEvent_Adaptor.t Ev Cb :=
  match m with
  | isBeginEvent => _set_callback_cbs_isBeginEvent_c0_0 cls cb
  | isEndEvent => _set_callback_cbs_isEndEvent_c0_0 cls cb
  | isUpdateEvent => _set_callback_cbs_isUpdateEvent_c0_0 cls cb
  | setAccepted => _set_callback_cbs_setAccepted_864_0 cls cb
  | setTimestamp => _set_callback_cbs_setTimestamp_1103_0 cls cb
  end.

(** The object [this] with [e] for its base subobject. *)
Definition with_base {Ev Cb : Type} (e : Ev) (this : QHoverEvent_Adaptor.t Ev Cb)
    : QHoverEvent_Adaptor.t Ev Cb :=
  QHoverEvent_Adaptor.mk e
    (QHoverEvent_Adaptor.cb_isBeginEvent_c0_0 this)
    (QHoverEvent_Adaptor.cb_isEndEvent_c0_0 this)
    (QHoverEvent_Adaptor.cb_isUpdateEvent_c0_0 this)
    (QHoverEvent_Adaptor.cb_setAccepted_864_0 this)
    (QHoverEvent_Adaptor.cb_setTimestamp_1103_0 this).

(** A call on an adaptor object, dispatched to the override: what it
    returns (nothing, for the two [void] methods) and the object after. *)
Definition call {Ev Cb : Type} `{QHoverEvent.methods Ev}
    `{gsi.Callback Cb (QHoverEvent_Adaptor.t Ev Cb)}
    (c : Call) (this : QHoverEvent_Adaptor.t Ev Cb)
    : option bool * QHoverEvent_Adaptor.t Ev Cb :=
  match c with
  | IsBeginEvent => (Some (QHoverEvent_Adaptor.isBeginEvent this), this)
  | IsEndEvent => (Some (QHoverEvent_Adaptor.isEndEvent this), this)
  | IsUpdateEvent => (Some (QHoverEvent_Adaptor.isUpdateEvent this), this)
  | SetAccepted accepted => (None, QHoverEvent_Adaptor.setAccepted accepted this)
  | SetTimestamp timestamp => (None, QHoverEvent_Adaptor.setTimestamp timestamp this)
  end.

(** The same call on a plain [QHoverEvent]. *)
Definition base_call {Ev : Type} `{QHoverEvent.methods Ev}
    (c : Call) (e : Ev) : option bool * Ev :=
  match c with
  | IsBeginEvent => (Some (QHoverEvent.isBeginEvent e), e)
  | IsEndEvent => (Some (QHoverEvent.isEndEvent e), e)
  | IsUpdateEvent => (Some (QHoverEvent.isUpdateEvent e), e)
  | SetAccepted accepted => (None, QHoverEvent.setAccepted accepted e)
  | SetTimestamp timestamp => (None, QHoverEvent.setTimestamp timestamp e)
  end.

(** A sequence of calls, one after the other: the results in order and the
    object after the last call. *)
Fixpoint run {X : Type} (step : Call -> X -> option bool * X)
    (calls : list Call) (x : X) : list (option bool) * X :=
  match calls with
  | [] => ([], x)
  | c :: calls' =>
      let (r, x') := step c x in
      let (rs, x'') := run step calls' x' in
      (r :: rs, x'')
  end.

End Virtual.

(** ** Statement devices for the grid-list encoder *)

(** The list without its leading empty texts. *)
Fixpoint skip_empty (l : list string) : list string :=
  match l with
  | [] => []
  | s :: l' => if Str.empty s then skip_empty l' else l
  end.

(** The number of separator characters in an encoded grid list. *)
Definition commas (r : string) : nat := Str.count ","%char r.

(** * Properties *)

(** ** Strings *)

Lemma append_nil_r (s : string) : s ++ "" = s.
Proof. induction s as [|a s IH]; simpl; [reflexivity | now rewrite IH]. Qed.

Lemma append_assoc (s u v : string) : (s ++ u) ++ v = s ++ (u ++ v).
Proof. induction s as [|a s IH]; simpl; [reflexivity | now rewrite IH]. Qed.

Lemma empty_true_iff (s : string) : Str.empty s = true <-> s = "".
Proof. destruct s; simpl; split; congruence. Qed.

Lemma empty_false_iff (s : string) : Str.empty s = false <-> s <> "".
Proof. destruct s; simpl; split; congruence. Qed.

Lemma empty_append (s u : string) :
  Str.empty (s ++ u) = Str.empty s && Str.empty u.
Proof. destruct s; reflexivity. Qed.

Lemma count_append (c : ascii) (s u : string) :
  Str.count c (s ++ u) = Str.count c s + Str.count c u.
Proof. induction s as [|a s IH]; simpl; [reflexivity | rewrite IH; lia]. Qed.

Lemma concat_nil_sep_cons (x : string) (l : list string) :
  String.concat "" (x :: l) = x ++ String.concat "" l.
Proof. destruct l; simpl; [now rewrite append_nil_r | reflexivity]. Qed.

Lemma concat_cons_cons (sep x y : string) (l : list string) :
  String.concat sep (x :: y :: l) = x ++ sep ++ String.concat sep (y :: l).
Proof. reflexivity. Qed.

(** ** The sample micron format *)

Example sample_micron_to_string :
  map Sample.micron_to_string [0.001; 0.005; 1; 2.5; 0; -0.25; 12345.678901]%float =
  ["0.00100"; "0.00500"; "1.00000"; "2.50000"; "0.00000"; "-0.25000"; "12345.67890"].
Proof. vm_compute. reflexivity. Qed.

Lemma digit_not_marker (d : Z) :
  (0 <= d < 10)%Z -> Ascii.eqb (Sample.digit d) "!" = false.
Proof.
  intros H.
  assert (E : d = 0%Z \/ d = 1%Z \/ d = 2%Z \/ d = 3%Z \/ d = 4%Z \/
              d = 5%Z \/ d = 6%Z \/ d = 7%Z \/ d = 8%Z \/ d = 9%Z) by lia.
  repeat (destruct E as [->|E]; [reflexivity|]). now subst d.
Qed.

Lemma markers_digits (fuel : nat) (n : Z) (acc : string) :
  markers (Sample.digits fuel n acc) = markers acc.
Proof.
  revert n acc. induction fuel as [|fuel IH]; intros n acc; simpl; [reflexivity|].
  assert (Hd : markers (String (Sample.digit (n mod 10)) acc) = markers acc).
  { unfold markers. simpl.
    now rewrite digit_not_marker by (apply Z.mod_pos_bound; lia). }
  destruct (n / 10 =? 0)%Z; [exact Hd | now rewrite IH].
Qed.

Lemma markers_fraction (k : nat) (n : Z) (acc : string) :
  markers (Sample.fraction k n acc) = markers acc.
Proof.
  revert n acc. induction k as [|k IH]; intros n acc; simpl; [reflexivity|].
  rewrite IH. unfold markers. simpl.
  now rewrite digit_not_marker by (apply Z.mod_pos_bound; lia).
Qed.

(** The sample micron text of a number holds no marker and is not empty:
    the assumptions made on [tl::micron_to_string] below can be met for
    every value. *)
Lemma sample_micron_no_marker (x : float) :
  markers (Sample.micron_to_string x) = 0.
Proof.
  unfold Sample.micron_to_string.
  destruct (Prim2SF x) as [s|s| |s m e];
    try reflexivity; try (destruct s; reflexivity).
  cbv zeta. unfold markers. rewrite !count_append.
  fold (markers (Sample.decimal (Sample.scaled m e / 100000))).
  fold (markers (Sample.fraction 5 (Sample.scaled m e mod 100000) "")).
  unfold Sample.decimal. rewrite markers_digits, markers_fraction.
  destruct s; reflexivity.
Qed.

Lemma sample_micron_nonempty (x : float) :
  Sample.micron_to_string x <> "".
Proof.
  apply empty_false_iff. unfold Sample.micron_to_string.
  destruct (Prim2SF x) as [s|s| |s m e];
    try reflexivity; try (destruct s; reflexivity).
  cbv zeta. rewrite !empty_append. simpl. now rewrite !andb_false_r.
Qed.

(** ** The grid-list encoder *)

Section GridList.

Context {fmt : tl.MicronFormat} {ct : db.coord_traits}.

(** A turn of the loop appends a comma, unless the text is still empty, and
    the entry of the value. *)
Lemma append_grid_entry (dg : float) (r : string) (g : float) :
  append_grid dg r g =
  (if Str.empty r then "" else r ++ ",") ++ grid_entry dg g.
Proof.
  unfold append_grid, grid_entry.
  destruct (Str.empty r) eqn:E; simpl.
  - apply empty_true_iff in E; subst r; simpl.
    destruct (db.equals g dg); [reflexivity | now rewrite append_nil_r].
  - destruct (db.equals g dg).
    + now rewrite !append_assoc.
    + now rewrite append_nil_r, !append_assoc.
Qed.

Lemma grid_entry_nonempty (dg g : float) :
  tl.micron_to_string g <> "" -> Str.empty (grid_entry dg g) = false.
Proof.
  intros H. unfold grid_entry. rewrite empty_append.
  apply empty_false_iff in H. now rewrite H.
Qed.

(** The loop started on a non-empty text puts a comma before every entry. *)
Lemma fold_append_grid_nonempty (dg : float) (grids : list float) (r : string) :
  Str.empty r = false ->
  fold_left (append_grid dg) grids r =
  r ++ String.concat "" (map (fun g => "," ++ grid_entry dg g) grids).
Proof.
  revert r. induction grids as [|g grids IH]; intros r Hr.
  - simpl. now rewrite append_nil_r.
  - cbn [fold_left map]. rewrite concat_nil_sep_cons, IH.
    + rewrite append_grid_entry, Hr. now rewrite !append_assoc.
    + rewrite append_grid_entry, Hr, empty_append.
      destruct r; [discriminate | reflexivity].
Qed.

Lemma concat_comma_entries (dg g : float) (grids : list float) :
  grid_entry dg g ++ String.concat "" (map (fun g => "," ++ grid_entry dg g) grids) =
  encode (g :: grids) dg.
Proof.
  unfold encode. revert g. induction grids as [|g' grids IH]; intros g.
  - simpl. now rewrite append_nil_r.
  - cbn [map]. rewrite concat_nil_sep_cons, concat_cons_cons.
    specialize (IH g'). cbn [map] in IH. rewrite <- IH.
    now rewrite !append_assoc.
Qed.

Lemma fold_append_grid_encode (dg : float) (grids : list float) :
  (forall g, In g grids -> tl.micron_to_string g <> "") ->
  fold_left (append_grid dg) grids "" = encode grids dg.
Proof.
  destruct grids as [|g grids]; intros H; [reflexivity|].
  cbn [fold_left]. rewrite fold_append_grid_nonempty.
  - rewrite append_grid_entry. cbn [Str.empty]. simpl String.append at 1.
    apply concat_comma_entries.
  - rewrite append_grid_entry. simpl.
    apply grid_entry_nonempty, H. now left.
Qed.

(** The markers of the text the loop builds: those already there and one
    for each value that compares equal to the default grid. *)
Lemma markers_fold_append_grid (dg : float) (grids : list float) (r : string) :
  (forall g, In g grids -> markers (tl.micron_to_string g) = 0) ->
  markers (fold_left (append_grid dg) grids r) =
  markers r + List.length (flagged dg grids).
Proof.
  unfold markers. revert r. induction grids as [|g grids IH]; intros r H.
  - simpl. lia.
  - cbn [fold_left]. rewrite IH by (intros; apply H; now right).
    assert (Hg : Str.count "!" (append_grid dg r g) =
                 Str.count "!" r + (if db.equals g dg then 1 else 0)).
    { unfold append_grid.
      assert (Hm := H g (or_introl eq_refl)).
      destruct (Str.empty r), (db.equals g dg); simpl negb; cbv iota;
        rewrite ?count_append, Hm; simpl; lia. }
    rewrite Hg. unfold flagged. cbn [filter].
    destruct (db.equals g dg); simpl; lia.
Qed.

Lemma flagged_nil_iff (dg : float) (grids : list float) :
  flagged dg grids = [] <-> (forall g, In g grids -> db.equals g dg = false).
Proof.
  unfold flagged. induction grids as [|g grids IH]; simpl.
  - split; [intros _ g [] | reflexivity].
  - destruct (db.equals g dg) eqn:E; split.
    + discriminate.
    + intros H. specialize (H g (or_introl eq_refl)). congruence.
    + intros H g' [<-|Hin]; [exact E | now apply IH].
    + intros H. apply IH. intros g' Hin. apply H. now right.
Qed.

Lemma append_grid_first (dg g : float) :
  append_grid dg "" g = grid_entry dg g.
Proof. now rewrite append_grid_entry. Qed.

Lemma fold_append_grid_from_entry (dg g : float) (grids : list float) :
  Str.empty (grid_entry dg g) = false ->
  fold_left (append_grid dg) grids (grid_entry dg g) = encode (g :: grids) dg.
Proof.
  intros H. rewrite fold_append_grid_nonempty by exact H.
  apply concat_comma_entries.
Qed.

(** The loop decides on the comma by [r.empty ()], not by the position in
    the list: entries whose text is empty are passed over without a
    separator as long as nothing has been written. *)
Lemma fold_append_grid_skip_empty (dg : float) (grids : list float) :
  fold_left (append_grid dg) grids "" =
  String.concat "," (skip_empty (map (grid_entry dg) grids)).
Proof.
  induction grids as [|g grids IH]; [reflexivity|].
  cbn [fold_left map skip_empty]. rewrite append_grid_first.
  destruct (Str.empty (grid_entry dg g)) eqn:E.
  - apply empty_true_iff in E. rewrite E. exact IH.
  - now apply fold_append_grid_from_entry.
Qed.

End GridList.

(** The text stored for a sample list with its second grid as default. *)
Example sample_set_default_grids :
  default_grids
    (@set_default_grid_list2 Sample.micron_format Sample.coord
       (@Technology_new Sample.ctor) [0.001; 0.005; 0.01]%float 0.005%float) =
  "0.00100,0.00500!,0.01000".
Proof. vm_compute. reflexivity. Qed.

(** The comparison is the tolerant one: a default that is bit-different from
    an entry, but within the tolerance, flags the entry. *)
Example sample_tolerant_default :
  default_grids
    (@set_default_grid_list2 Sample.micron_format Sample.coord
       (@Technology_new Sample.ctor) [0.001; 0.005]%float 0.005000001%float) =
  "0.00100,0.00500!".
Proof. vm_compute. reflexivity. Qed.

(** Two entries that differ by more than the tolerance are both within the
    tolerance of a default between them, and both are flagged. *)
Example sample_two_flags_distinct_entries :
  Sample.equals 0.001 0.001015 = false /\
  default_grids
    (@set_default_grid_list2 Sample.micron_format Sample.coord
       (@Technology_new Sample.ctor) [0.001; 0.001015]%float 0.001008%float) =
  "0.00100!,0.00102!".
Proof. vm_compute. split; reflexivity. Qed.

(** C1.  [set_default_grid_list2] stores, as the default-grid text of the
    record, the comma-separated list of the micron texts of the grid values
    in the order of the input, one entry per input value, with the marker
    ["!"] directly after the text of exactly those values that
    [db::coord_traits<db::DCoord>::equals] finds equal to [default_grid];
    nothing else of the record changes.  The micron text of a number is
    taken not to be empty. *)
Theorem set_default_grid_list2_stores_encoding
    {fmt : tl.MicronFormat} {ct : db.coord_traits}
    (tech : Technology) (grids : list float) (default_grid : float) :
  (forall g, In g grids -> tl.micron_to_string g <> "") ->
  default_grids (set_default_grid_list2 tech grids default_grid) =
    String.concat ","
      (map (fun g => tl.micron_to_string g ++
                     (if db.equals g default_grid then "!" else "")) grids)
  /\ set_default_grid_list2 tech grids default_grid =
     set_default_grids (encode grids default_grid) tech.
Proof.
  intros H. unfold set_default_grid_list2.
  rewrite (fold_append_grid_encode default_grid grids H).
  split; reflexivity.
Qed.

Lemma set_default_grid_list2_stores_encoding_witness :
  default_grids
    (@set_default_grid_list2 Sample.micron_format Sample.coord
       (@Technology_new Sample.ctor) [0.001; 0.005; 0.01]%float 0.005%float) =
    String.concat ","
      (map (fun g => Sample.micron_to_string g ++
                     (if Sample.equals g 0.005 then "!" else ""))
           [0.001; 0.005; 0.01]%float).
Proof.
  apply (@set_default_grid_list2_stores_encoding
           Sample.micron_format Sample.coord
           (@Technology_new Sample.ctor) [0.001; 0.005; 0.01]%float 0.005%float).
  intros g [<-|[<-|[<-|[]]]]; vm_compute; discriminate.
Defined.

(** C4.  [set_default_grid_list] is [set_default_grid_list2] with the
    default grid [0.0].  When no grid value compares equal to [0.0], as for
    realistic positive grids, no entry is flagged and the stored text holds
    no marker, whatever text and marking the record held before: the stored
    text depends on the grid list alone. *)
Theorem set_default_grid_list_clears_default
    {fmt : tl.MicronFormat} {ct : db.coord_traits}
    (tech : Technology) (grids : list float) :
  (forall g, In g grids -> db.equals g 0%float = false) ->
  (forall g, In g grids -> markers (tl.micron_to_string g) = 0) ->
  set_default_grid_list tech grids = set_default_grid_list2 tech grids 0%float
  /\ flagged 0%float grids = []
  /\ markers (default_grids (set_default_grid_list tech grids)) = 0
  /\ (forall tech' : Technology,
        default_grids (set_default_grid_list tech' grids) =
        default_grids (set_default_grid_list tech grids)).
Proof.
  intros Hreal Htext.
  assert (Hflag : flagged 0%float grids = []) by now apply flagged_nil_iff.
  repeat split.
  - exact Hflag.
  - unfold set_default_grid_list, set_default_grid_list2. cbn [default_grids set_default_grids].
    rewrite markers_fold_append_grid by exact Htext. now rewrite Hflag.
Qed.

Lemma set_default_grid_list_clears_default_witness :
  markers
    (default_grids
       (@set_default_grid_list Sample.micron_format Sample.coord
          (set_default_grids "0.00100,0.00500!" (@Technology_new Sample.ctor))
          [0.001; 0.005]%float)) = 0.
Proof.
  apply (@set_default_grid_list_clears_default
           Sample.micron_format Sample.coord
           (set_default_grids "0.00100,0.00500!" (@Technology_new Sample.ctor))
           [0.001; 0.005]%float).
  - intros g [<-|[<-|[]]]; vm_compute; reflexivity.
  - intros g [<-|[<-|[]]]; vm_compute; reflexivity.
Defined.

(** C5, as stated, fails: in a list that holds the default grid twice both
    entries are flagged. *)
Lemma set_default_grids_flags_duplicates :
  default_grids
    (@set_default_grid_list2 Sample.micron_format Sample.coord
       (@Technology_new Sample.ctor) [0.01; 0.01]%float 0.01%float) =
  "0.01000!,0.01000!"
  /\ ~ markers
       (default_grids
          (@set_default_grid_list2 Sample.micron_format Sample.coord
             (@Technology_new Sample.ctor) [0.01; 0.01]%float 0.01%float)) <= 1.
Proof. vm_compute. split; [reflexivity | lia]. Qed.

(** C5, amended.  The entries [set_default_grid_list2] flags are exactly the
    entries of the list that compare equal to [default_grid].  The stored
    text is the comma-separated list of the entries of the listed values,
    in the order of the list and without the leading entries whose text is
    empty (there are none when no micron text is empty); the entry of a
    value is its micron text, directly followed by the marker when the
    value compares equal to the default, so the entry carries a marker
    exactly in that case.  Hence every flagged entry is a value of the
    list, the stored text holds one marker for each value that compares
    equal to the default, a default that no entry compares equal to flags
    nothing and is no error, and at most one entry is flagged when at most
    one entry compares equal to the default.  The micron text of a number
    is taken to hold no marker character. *)
Theorem set_default_grids_flags_equal_entries
    {fmt : tl.MicronFormat} {ct : db.coord_traits}
    (tech : Technology) (grids : list float) (default_grid : float) :
  (forall g, In g grids -> markers (tl.micron_to_string g) = 0) ->
  default_grids (set_default_grid_list2 tech grids default_grid) =
    String.concat ","
      (skip_empty
         (map (fun g => tl.micron_to_string g ++
                        (if db.equals g default_grid then "!" else "")) grids))
  /\ ((forall g, In g grids -> tl.micron_to_string g <> "") ->
      default_grids (set_default_grid_list2 tech grids default_grid) =
      String.concat ","
        (map (fun g => tl.micron_to_string g ++
                       (if db.equals g default_grid then "!" else "")) grids))
  /\ (forall g, In g grids ->
        markers (tl.micron_to_string g ++
                 (if db.equals g default_grid then "!" else "")) =
        (if db.equals g default_grid then 1 else 0))
  /\ markers (default_grids (set_default_grid_list2 tech grids default_grid)) =
     List.length (flagged default_grid grids)
  /\ (forall g, In g (flagged default_grid grids) <->
                In g grids /\ db.equals g default_grid = true)
  /\ ((forall g, In g grids -> db.equals g default_grid = false) ->
      markers (default_grids (set_default_grid_list2 tech grids default_grid)) = 0)
  /\ (List.length (flagged default_grid grids) <= 1 ->
      markers (default_grids (set_default_grid_list2 tech grids default_grid)) <= 1).
Proof.
  intros Htext.
  assert (Hm : markers (default_grids (set_default_grid_list2 tech grids default_grid)) =
               List.length (flagged default_grid grids)).
  { unfold set_default_grid_list2. cbn [default_grids set_default_grids].
    now rewrite markers_fold_append_grid. }
  split; [|split; [|split; [|split; [exact Hm|split; [|split]]]]].
  - unfold set_default_grid_list2. cbn [default_grids set_default_grids].
    apply fold_append_grid_skip_empty.
  - intros Hne. unfold set_default_grid_list2. cbn [default_grids set_default_grids].
    now apply fold_append_grid_encode.
  - intros g Hg. unfold markers. rewrite count_append.
    fold (markers (tl.micron_to_string g)). rewrite (Htext g Hg).
    destruct (db.equals g default_grid); reflexivity.
  - intros g. unfold flagged.
    exact (filter_In (fun g => db.equals g default_grid) g grids).
  - intros Hnone. rewrite Hm.
    now apply flagged_nil_iff in Hnone; rewrite Hnone.
  - intros Hone. now rewrite Hm.
Qed.

Lemma set_default_grids_flags_equal_entries_witness :
  default_grids
    (@set_default_grid_list2 Sample.micron_format Sample.coord
       (@Technology_new Sample.ctor) [0.001; 0.005; 0.01]%float 0.005%float) =
    String.concat ","
      (map (fun g => Sample.micron_to_string g ++
                     (if Sample.equals g 0.005 then "!" else ""))
           [0.001; 0.005; 0.01]%float)
  /\ markers
       (default_grids
          (@set_default_grid_list2 Sample.micron_format Sample.coord
             (@Technology_new Sample.ctor) [0.001; 0.005; 0.01]%float 0.005%float)) =
     List.length (@flagged Sample.coord 0.005%float [0.001; 0.005; 0.01]%float).
Proof.
  destruct (@set_default_grids_flags_equal_entries
              Sample.micron_format Sample.coord
              (@Technology_new Sample.ctor) [0.001; 0.005; 0.01]%float 0.005%float)
    as (_ & Htxt & _ & Hm & _).
  - intros g [<-|[<-|[<-|[]]]]; vm_compute; reflexivity.
  - split; [|exact Hm].
    apply Htxt. intros g [<-|[<-|[<-|[]]]]; vm_compute; discriminate.
Defined.

(** ** The registry *)

Section RegistryFacts.

Implicit Types (reg : Registry.t) (n : string) (tech : Technology).

Lemma named_true n tech : Registry.named n tech = true <-> name tech = n.
Proof. unfold Registry.named. apply String.eqb_eq. Qed.

Lemma named_false n tech : Registry.named n tech = false <-> name tech <> n.
Proof. unfold Registry.named. apply String.eqb_neq. Qed.

Lemma has_technology_In reg n :
  Registry.has_technology reg n = true <-> In n (map name reg).
Proof.
  unfold Registry.has_technology. rewrite existsb_exists, in_map_iff.
  split; intros [tech [H1 H2]]; exists tech.
  - apply named_true in H2. now split.
  - split; [exact H2 | now apply named_true].
Qed.

Lemma has_technology_not_In reg n :
  Registry.has_technology reg n = false <-> ~ In n (map name reg).
Proof.
  rewrite <- has_technology_In.
  destruct (Registry.has_technology reg n); split; congruence.
Qed.

(** A lookup finds a record of that name exactly when the name is
    registered; otherwise the result is the null pointer. *)
Lemma technology_by_name_found reg n :
  Registry.has_technology reg n = true ->
  exists i tech,
    Registry.technology_by_name reg n = Some i /\
    nth_error reg i = Some tech /\ name tech = n.
Proof.
  induction reg as [|t0 reg IH]; simpl; [discriminate|].
  destruct (Registry.named n t0) eqn:E; simpl.
  - intros _. exists 0, t0. apply named_true in E. now repeat split.
  - intros H. destruct (IH H) as [i [tech [H1 [H2 H3]]]].
    exists (S i), tech. rewrite H1. now repeat split.
Qed.

Lemma technology_by_name_null reg n :
  Registry.has_technology reg n = false ->
  Registry.technology_by_name reg n = None.
Proof.
  induction reg as [|t0 reg IH]; simpl; [reflexivity|].
  destruct (Registry.named n t0); simpl; [discriminate|].
  intros H. now rewrite IH.
Qed.

(** The record appended under a new name is the one a lookup of that name
    finds. *)
Lemma technology_by_name_appended reg tech :
  Registry.has_technology reg (name tech) = false ->
  Registry.technology_by_name (reg ++ [tech])%list (name tech) =
  Some (List.length reg).
Proof.
  induction reg as [|t0 reg IH]; simpl.
  - intros _. unfold Registry.named. now rewrite String.eqb_refl.
  - destruct (Registry.named (name tech) t0); simpl; [discriminate|].
    intros H. now rewrite IH.
Qed.

Lemma has_technology_appended reg tech n :
  Registry.has_technology (reg ++ [tech])%list n =
  Registry.has_technology reg n || Registry.named n tech.
Proof.
  unfold Registry.has_technology. rewrite existsb_app. simpl.
  now rewrite orb_false_r.
Qed.

Lemma has_technology_remove reg n :
  Registry.wf reg ->
  Registry.has_technology (Registry.remove reg n) n = false.
Proof.
  unfold Registry.wf. induction reg as [|t0 reg IH]; simpl; [reflexivity|].
  intros Hwf. inversion Hwf as [|x l Hnotin Hnodup]; subst.
  destruct (Registry.named n t0) eqn:E.
  - apply named_true in E. subst n. now apply has_technology_not_In.
  - simpl. rewrite E. simpl. now apply IH.
Qed.

Lemma has_technology_remove_other reg n n' :
  n' <> n ->
  Registry.has_technology (Registry.remove reg n) n' =
  Registry.has_technology reg n'.
Proof.
  intros Hne. induction reg as [|t0 reg IH]; simpl; [reflexivity|].
  destruct (Registry.named n t0) eqn:E.
  - apply named_true in E.
    assert (Registry.named n' t0 = false) as -> by (apply named_false; congruence).
    reflexivity.
  - simpl. now rewrite IH.
Qed.

Lemma remove_incl reg n x :
  In x (map name (Registry.remove reg n)) -> In x (map name reg).
Proof.
  induction reg as [|t0 reg IH]; simpl; [tauto|].
  destruct (Registry.named n t0); simpl; [tauto|].
  intros [H|H]; [now left | right; now apply IH].
Qed.

(** Name uniqueness holds of the empty registry and is kept by every
    operation that changes the registry. *)
Lemma wf_clear reg : Registry.wf (Registry.clear reg).
Proof. constructor. Qed.

Lemma wf_add_new reg tech :
  Registry.wf reg -> Registry.wf (snd (Registry.add_new reg tech)).
Proof.
  unfold Registry.add_new, Registry.wf. intros Hwf.
  destruct (Registry.has_technology reg (name tech)) eqn:E; simpl; [exact Hwf|].
  rewrite map_app. simpl. apply has_technology_not_In in E.
  apply NoDup_rev in Hwf. rewrite <- (rev_involutive (map name reg ++ [name tech])).
  apply NoDup_rev. rewrite rev_app_distr. simpl. constructor; [|exact Hwf].
  now rewrite <- in_rev.
Qed.

Lemma wf_remove reg n : Registry.wf reg -> Registry.wf (Registry.remove reg n).
Proof.
  unfold Registry.wf. induction reg as [|t0 reg IH]; simpl; [trivial|].
  intros Hwf. inversion Hwf as [|x l Hnotin Hnodup]; subst.
  destruct (Registry.named n t0); [exact Hnodup|].
  simpl. constructor; [|now apply IH].
  intros Hin. apply Hnotin. eapply remove_incl, Hin.
Qed.

(** The loop of [technology_names] collects the names in registry order. *)
Lemma technology_names_map reg : gsi.technology_names reg = map name reg.
Proof.
  unfold gsi.technology_names. simpl. unfold Registry.elements.
  enough (H : forall acc, fold_left (fun names t => (names ++ [name t])%list) reg acc =
                          (acc ++ map name reg)%list) by apply (H []).
  induction reg as [|t0 reg IH]; intros acc; simpl.
  - now rewrite app_nil_r.
  - rewrite IH, <- app_assoc. reflexivity.
Qed.

End RegistryFacts.

(** [create_technology] returns when the name is not registered yet. *)
Lemma create_technology_returns {ctor : TechnologyCtor} (reg : Registry.t) (X : string) :
  gsi.has_technology reg X = false ->
  gsi.create_technology reg X =
  (Returned (Some (List.length reg)), (reg ++ [set_name X Technology_new])%list).
Proof.
  unfold gsi.has_technology, gsi.create_technology. simpl.
  unfold Registry.add_new. simpl. now intros ->.
Qed.

(** C6.  When the name of the record is already registered,
    [register_technology] is left by an exception and the registry is as it
    was before the call: the record registered under that name is still the
    one a lookup finds, unmodified. *)
Theorem register_technology_name_collision (reg : Registry.t) (tech : Technology) :
  gsi.has_technology reg (name tech) = true ->
  gsi.register_technology reg tech = (Thrown, reg)
  /\ exists (i : nat) (stored : Technology),
       gsi.technology_by_name reg (name tech) = Some i
       /\ Registry.deref reg (Some i) = Some stored
       /\ name stored = name tech
       /\ gsi.technology_by_name (snd (gsi.register_technology reg tech)) (name tech) = Some i
       /\ Registry.deref (snd (gsi.register_technology reg tech)) (Some i) = Some stored.
Proof.
  unfold gsi.has_technology, gsi.register_technology, gsi.technology_by_name.
  simpl. intros Hhas.
  assert (Hthrow : Registry.add_new reg tech = (Thrown, reg)).
  { unfold Registry.add_new. now rewrite Hhas. }
  split; [exact Hthrow|].
  destruct (technology_by_name_found reg (name tech) Hhas) as [i [stored [H1 [H2 H3]]]].
  exists i, stored. rewrite Hthrow. simpl. now repeat split.
Qed.

Lemma register_technology_name_collision_witness :
  gsi.register_technology Sample.registry
    (set_name "B" (@Technology_new Sample.ctor)) = (Thrown, Sample.registry).
Proof.
  apply (register_technology_name_collision Sample.registry
           (set_name "B" (@Technology_new Sample.ctor))).
  vm_compute. reflexivity.
Defined.

(** C7.  After [create_technology (X)] has returned, [has_technology (X)] is
    true and [technology_by_name (X)] is the pointer [create_technology]
    returned: it is not null and refers to the stored copy, an empty record
    whose name is [X]. *)
Theorem create_technology_then_lookup {ctor : TechnologyCtor}
    (reg reg' : Registry.t) (X : string) (p : Registry.Ptr) :
  gsi.create_technology reg X = (Returned p, reg') ->
  gsi.has_technology reg' X = true
  /\ gsi.technology_by_name reg' X = p
  /\ exists stored : Technology,
       Registry.deref reg' p = Some stored
       /\ name stored = X
       /\ stored = set_name X Technology_new.
Proof.
  unfold gsi.create_technology, gsi.has_technology, gsi.technology_by_name.
  simpl. unfold Registry.add_new.
  destruct (Registry.has_technology reg (name (set_name X Technology_new))) eqn:E;
    [discriminate|].
  intros H. injection H as <- <-.
  change (name (set_name X Technology_new)) with X in E.
  split; [|split].
  - rewrite has_technology_appended. unfold Registry.named. simpl.
    rewrite String.eqb_refl. apply orb_true_r.
  - exact (technology_by_name_appended reg (set_name X Technology_new) E).
  - exists (set_name X Technology_new). repeat split.
    simpl. rewrite nth_error_app2 by lia. now rewrite Nat.sub_diag.
Qed.

Lemma create_technology_then_lookup_witness :
  gsi.has_technology
    (Sample.registry ++ [set_name "X" (@Technology_new Sample.ctor)])%list "X" = true.
Proof.
  apply (@create_technology_then_lookup Sample.ctor Sample.registry
           (Sample.registry ++ [set_name "X" (@Technology_new Sample.ctor)])%list
           "X" (Some 2)).
  vm_compute. reflexivity.
Defined.

(** C8.  In a registry with unique names, after [remove_technology (X)]
    [has_technology (X)] is false; after [clear_technologies ()]
    [technology_names ()] is the empty sequence. *)
Theorem remove_then_has_clear_then_names (reg : Registry.t) (X : string) :
  Registry.wf reg ->
  gsi.has_technology (gsi.remove_technology reg X) X = false
  /\ gsi.technology_names (gsi.clear_technologies reg) = [].
Proof.
  intros Hwf. split.
  - unfold gsi.has_technology, gsi.remove_technology. simpl.
    now apply has_technology_remove.
  - rewrite technology_names_map. reflexivity.
Qed.

Lemma remove_then_has_clear_then_names_witness :
  gsi.has_technology Sample.registry "B" = true
  /\ gsi.has_technology (gsi.remove_technology Sample.registry "B") "B" = false
  /\ gsi.technology_names (gsi.clear_technologies Sample.registry) = [].
Proof.
  split; [vm_compute; reflexivity|].
  apply (remove_then_has_clear_then_names Sample.registry "B").
  unfold Registry.wf. simpl.
  constructor; [|constructor; [|constructor]]; simpl.
  - intros [H|[]]. discriminate.
  - intros [].
Defined.

(** C9.  [create_technology (name)] is [register_technology] applied to a
    default-constructed record whose name has been set to [name]: for every
    registry, the two give the same result (the same pointer or the same
    exception) and the same registry state, namely those of [add_new] on
    that record. *)
Theorem create_technology_is_register_technology
    {Reg Ptr : Type} {ctor : TechnologyCtor} {ops : db.Technologies Reg Ptr}
    (reg : Reg) (n : string) :
  gsi.create_technology reg n =
    gsi.register_technology reg (set_name n Technology_new)
  /\ gsi.register_technology reg (set_name n Technology_new) =
     db.add_new reg (set_name n Technology_new)
  /\ name (set_name n Technology_new) = n.
Proof.
  unfold gsi.create_technology, gsi.register_technology.
  repeat split.
Qed.

(** ** The XML functions *)

(** C3.  [technology_to_xml] of the null pointer is the empty string, no
    exception is involved; of a record it is the text [tl::XMLStruct::write]
    renders, which starts with the root element and so is never the empty
    string, in particular not when the record has a name. *)
Theorem technology_to_xml_null_and_record {xml : tl.XMLElementList} :
  gsi.technology_to_xml None = ""
  /\ (forall tech : Technology,
        gsi.technology_to_xml (Some tech) = tl.write "technology" tech
        /\ gsi.technology_to_xml (Some tech) <> "").
Proof.
  split; [reflexivity|].
  intros tech. split; [reflexivity|].
  simpl. unfold tl.write. simpl. discriminate.
Qed.

(** ** The hover event adaptor *)

Section Adaptor.

Context {Ev Cb : Type} {qt : QHoverEvent.methods Ev}.
Context {cbk : gsi.Callback Cb (QHoverEvent_Adaptor.t Ev Cb)}.

Import QHoverEvent_Adaptor.

(** The members the callbacks are issued with are the base implementations. *)
Lemma cbs_are_base (this : QHoverEvent_Adaptor.t Ev Cb) (accepted : bool) (timestamp : N) :
  cbs_isBeginEvent_c0_0 this = QHoverEvent.isBeginEvent (base this)
  /\ cbs_isEndEvent_c0_0 this = QHoverEvent.isEndEvent (base this)
  /\ cbs_isUpdateEvent_c0_0 this = QHoverEvent.isUpdateEvent (base this)
  /\ base (cbs_setAccepted_864_0 accepted this) =
     QHoverEvent.setAccepted accepted (base this)
  /\ base (cbs_setTimestamp_1103_0 timestamp this) =
     QHoverEvent.setTimestamp timestamp (base this).
Proof. repeat split. Qed.

(** C10.  For each of the five virtual methods, when its callback cannot
    issue the override of the adaptor returns what the implementation of
    [QHoverEvent] returns on the base subobject, or does to the base
    subobject what that implementation does and leaves the callback slots
    as they are. *)
Theorem adaptor_without_callback_is_base
    (this : QHoverEvent_Adaptor.t Ev Cb) (accepted : bool) (timestamp : N) :
  (gsi.can_issue (cb_isBeginEvent_c0_0 this) = false ->
   isBeginEvent this = QHoverEvent.isBeginEvent (base this))
  /\ (gsi.can_issue (cb_isEndEvent_c0_0 this) = false ->
      isEndEvent this = QHoverEvent.isEndEvent (base this))
  /\ (gsi.can_issue (cb_isUpdateEvent_c0_0 this) = false ->
      isUpdateEvent this = QHoverEvent.isUpdateEvent (base this))
  /\ (gsi.can_issue (cb_setAccepted_864_0 this) = false ->
      setAccepted accepted this =
      mk (QHoverEvent.setAccepted accepted (base this))
         (cb_isBeginEvent_c0_0 this) (cb_isEndEvent_c0_0 this)
         (cb_isUpdateEvent_c0_0 this) (cb_setAccepted_864_0 this)
         (cb_setTimestamp_1103_0 this))
  /\ (gsi.can_issue (cb_setTimestamp_1103_0 this) = false ->
      setTimestamp timestamp this =
      mk (QHoverEvent.setTimestamp timestamp (base this))
         (cb_isBeginEvent_c0_0 this) (cb_isEndEvent_c0_0 this)
         (cb_isUpdateEvent_c0_0 this) (cb_setAccepted_864_0 this)
         (cb_setTimestamp_1103_0 this)).
Proof.
  unfold isBeginEvent, isEndEvent, isUpdateEvent, setAccepted, setTimestamp.
  repeat split; intros Hno; rewrite Hno; reflexivity.
Qed.

End Adaptor.

Section AdaptorExamples.

#[local] Existing Instance Sample.hover.
#[local] Existing Instance Sample.callback.

Lemma adaptor_without_callback_is_base_witness :
  QHoverEvent_Adaptor.isBeginEvent Sample.plain_adaptor = true
  /\ QHoverEvent_Adaptor.isEndEvent Sample.plain_adaptor = false
  /\ QHoverEvent_Adaptor.isUpdateEvent Sample.plain_adaptor = false
  /\ Sample.m_accept
       (QHoverEvent_Adaptor.base
          (QHoverEvent_Adaptor.setAccepted true Sample.plain_adaptor)) = true
  /\ Sample.m_timestamp
       (QHoverEvent_Adaptor.base
          (QHoverEvent_Adaptor.setTimestamp 42 Sample.plain_adaptor)) = 42%N.
Proof.
  destruct (@adaptor_without_callback_is_base _ _ Sample.hover
              (Sample.callback _) Sample.plain_adaptor true 42%N)
    as [H1 [H2 [H3 [H4 H5]]]].
  rewrite (H1 eq_refl), (H2 eq_refl), (H3 eq_refl), (H4 eq_refl), (H5 eq_refl).
  repeat split.
Defined.

(** With callbacks installed the adaptor answers what the script answers. *)
Example scripted_adaptor_differs :
  QHoverEvent_Adaptor.isBeginEvent Sample.scripted_adaptor = false
  /\ QHoverEvent.isBeginEvent (QHoverEvent_Adaptor.base Sample.scripted_adaptor) = true
  /\ QHoverEvent_Adaptor.setAccepted true Sample.scripted_adaptor = Sample.scripted_adaptor.
Proof. repeat split. Qed.

End AdaptorExamples.

(** * Further properties of the code *)

(** ** The grid-list encoder *)

Section GridListMore.

Context {fmt : tl.MicronFormat} {ct : db.coord_traits}.

Lemma commas_grid_entry (dg g : float) :
  commas (tl.micron_to_string g) = 0 -> commas (grid_entry dg g) = 0.
Proof.
  unfold commas, grid_entry. intros H. rewrite count_append, H.
  destruct (db.equals g dg); reflexivity.
Qed.

Lemma commas_tail (dg : float) (grids : list float) :
  (forall g, In g grids -> commas (tl.micron_to_string g) = 0) ->
  commas (String.concat "" (map (fun g => "," ++ grid_entry dg g) grids)) =
  List.length grids.
Proof.
  induction grids as [|g grids IH]; intros H; [reflexivity|].
  cbn [map]. rewrite concat_nil_sep_cons.
  assert (Hg := commas_grid_entry dg g (H g (or_introl eq_refl))).
  specialize (IH (fun g' Hin => H g' (or_intror Hin))).
  unfold commas in *. rewrite !count_append, IH, Hg. reflexivity.
Qed.

(** The loop reads the default grid through [equals] only. *)
Lemma fold_append_grid_ext (d1 d2 : float) (grids : list float) (r : string) :
  (forall g, In g grids -> db.equals g d1 = db.equals g d2) ->
  fold_left (append_grid d1) grids r = fold_left (append_grid d2) grids r.
Proof.
  revert r. induction grids as [|g grids IH]; intros r H; [reflexivity|].
  cbn [fold_left].
  assert (E : append_grid d1 r g = append_grid d2 r g).
  { unfold append_grid. now rewrite (H g (or_introl eq_refl)). }
  rewrite E. apply IH. intros; apply H; now right.
Qed.

End GridListMore.

(** X2.  For every formatter and comparison, the text
    [set_default_grid_list2] stores is the comma-separated list of the
    entries that remain after the leading entries with an empty text are
    dropped: the loop writes a comma whenever the text built so far is not
    empty. *)
Theorem set_default_grid_list2_skips_leading_empty
    {fmt : tl.MicronFormat} {ct : db.coord_traits}
    (tech : Technology) (grids : list float) (default_grid : float) :
  default_grids (set_default_grid_list2 tech grids default_grid) =
  String.concat ","
    (skip_empty
       (map (fun g => tl.micron_to_string g ++
                      (if db.equals g default_grid then "!" else "")) grids)).
Proof.
  unfold set_default_grid_list2. cbn [default_grids set_default_grids].
  apply fold_append_grid_skip_empty.
Qed.

(** X3.  When the micron text of a listed value is never empty, the stored
    text is empty exactly when the grid list is empty. *)
Theorem set_default_grid_list2_empty_iff
    {fmt : tl.MicronFormat} {ct : db.coord_traits}
    (tech : Technology) (grids : list float) (default_grid : float) :
  (forall g, In g grids -> tl.micron_to_string g <> "") ->
  default_grids (set_default_grid_list2 tech grids default_grid) = "" <->
  grids = [].
Proof.
  intros H. unfold set_default_grid_list2. cbn [default_grids set_default_grids].
  split.
  - destruct grids as [|g grids]; [reflexivity|]. intros E. exfalso.
    cbn [fold_left] in E. rewrite append_grid_first in E.
    assert (Hg := grid_entry_nonempty default_grid g (H g (or_introl eq_refl))).
    rewrite fold_append_grid_nonempty in E by exact Hg.
    apply (f_equal Str.empty) in E. rewrite empty_append, Hg in E. discriminate.
  - intros ->. reflexivity.
Qed.

Lemma set_default_grid_list2_empty_iff_witness :
  default_grids
    (@set_default_grid_list2 Sample.micron_format Sample.coord
       (@Technology_new Sample.ctor) [0.001; 0.005]%float 0.005%float) = "" <->
  [0.001; 0.005]%float = [].
Proof.
  apply (@set_default_grid_list2_empty_iff Sample.micron_format Sample.coord
           (@Technology_new Sample.ctor) [0.001; 0.005]%float 0.005%float).
  intros g [<-|[<-|[]]]; vm_compute; discriminate.
Defined.

(** X4.  When the micron text of a listed value is never empty and holds no
    comma, the stored text holds one comma less than the list has values
    (none for the empty list): the number of entries can be read off the
    text. *)
Theorem set_default_grid_list2_commas
    {fmt : tl.MicronFormat} {ct : db.coord_traits}
    (tech : Technology) (grids : list float) (default_grid : float) :
  (forall g, In g grids -> tl.micron_to_string g <> "") ->
  (forall g, In g grids -> commas (tl.micron_to_string g) = 0) ->
  commas (default_grids (set_default_grid_list2 tech grids default_grid)) =
  pred (List.length grids).
Proof.
  intros Hne Hc. unfold set_default_grid_list2. cbn [default_grids set_default_grids].
  destruct grids as [|g grids]; [reflexivity|].
  cbn [fold_left]. rewrite append_grid_first.
  rewrite fold_append_grid_nonempty
    by (apply grid_entry_nonempty, Hne; now left).
  unfold commas. rewrite count_append.
  fold (commas (grid_entry default_grid g)).
  fold (commas (String.concat "" (map (fun g => "," ++ grid_entry default_grid g) grids))).
  rewrite commas_grid_entry by (apply Hc; now left).
  rewrite commas_tail by (intros; apply Hc; now right).
  reflexivity.
Qed.

Lemma set_default_grid_list2_commas_witness :
  commas
    (default_grids
       (@set_default_grid_list2 Sample.micron_format Sample.coord
          (@Technology_new Sample.ctor) [0.001; 0.005; 0.01]%float 0.005%float)) = 2.
Proof.
  apply (@set_default_grid_list2_commas Sample.micron_format Sample.coord
           (@Technology_new Sample.ctor) [0.001; 0.005; 0.01]%float 0.005%float).
  - intros g [<-|[<-|[<-|[]]]]; vm_compute; discriminate.
  - intros g [<-|[<-|[<-|[]]]]; vm_compute; reflexivity.
Defined.

(** X5.  When the micron text of a listed value is never empty, the text
    stored for two non-empty grid lists one after the other is the text for
    the first, a comma and the text for the second. *)
Theorem set_default_grid_list2_app
    {fmt : tl.MicronFormat} {ct : db.coord_traits}
    (tech : Technology) (grids1 grids2 : list float) (default_grid : float) :
  (forall g, In g (grids1 ++ grids2)%list -> tl.micron_to_string g <> "") ->
  grids1 <> [] -> grids2 <> [] ->
  default_grids (set_default_grid_list2 tech (grids1 ++ grids2)%list default_grid) =
  default_grids (set_default_grid_list2 tech grids1 default_grid) ++ "," ++
  default_grids (set_default_grid_list2 tech grids2 default_grid).
Proof.
  intros H H1 H2. unfold set_default_grid_list2. cbn [default_grids set_default_grids].
  rewrite fold_left_app.
  destruct grids1 as [|g1 grids1]; [congruence|].
  destruct grids2 as [|g2 grids2]; [congruence|].
  assert (Hne1 : Str.empty (fold_left (append_grid default_grid) (g1 :: grids1) "") = false).
  { cbn [fold_left]. rewrite append_grid_first.
    assert (Hg : Str.empty (grid_entry default_grid g1) = false)
      by (apply grid_entry_nonempty, H; now left).
    rewrite fold_append_grid_nonempty by exact Hg.
    now rewrite empty_append, Hg. }
  rewrite fold_append_grid_nonempty by exact Hne1.
  cbn [map]. rewrite concat_nil_sep_cons.
  rewrite (fold_append_grid_encode default_grid (g2 :: grids2))
    by (intros g Hg; apply H, in_or_app; now right).
  rewrite <- concat_comma_entries.
  now rewrite !append_assoc.
Qed.

Lemma set_default_grid_list2_app_witness :
  default_grids
    (@set_default_grid_list2 Sample.micron_format Sample.coord
       (@Technology_new Sample.ctor) ([0.001; 0.005] ++ [0.01])%list%float 0.005%float) =
  default_grids
    (@set_default_grid_list2 Sample.micron_format Sample.coord
       (@Technology_new Sample.ctor) [0.001; 0.005]%float 0.005%float) ++ "," ++
  default_grids
    (@set_default_grid_list2 Sample.micron_format Sample.coord
       (@Technology_new Sample.ctor) [0.01]%float 0.005%float).
Proof.
  apply (@set_default_grid_list2_app Sample.micron_format Sample.coord
           (@Technology_new Sample.ctor) [0.001; 0.005]%float [0.01]%float 0.005%float).
  - intros g [<-|[<-|[<-|[]]]]; vm_compute; discriminate.
  - discriminate.
  - discriminate.
Defined.

(** A formatter that writes nothing for zero shows the passing over: the
    leading zero leaves no trace, the one in the middle leaves its comma. *)
Example sample_skips_leading_empty :
  default_grids
    (@set_default_grid_list2
       {| tl.micron_to_string x :=
            if PrimFloat.eqb x 0 then "" else Sample.micron_to_string x |}
       Sample.coord
       (@Technology_new Sample.ctor) [0; 0.5; 0; 2]%float 0.5%float) =
  "0.50000!,,2.00000".
Proof. vm_compute. reflexivity. Qed.

(** X6.  The default grid enters the stored text through the comparison
    with the listed values only: two default grids that compare alike with
    every listed value give the same record. *)
Theorem set_default_grid_list2_default_through_equals
    {fmt : tl.MicronFormat} {ct : db.coord_traits}
    (tech : Technology) (grids : list float) (d1 d2 : float) :
  (forall g, In g grids -> db.equals g d1 = db.equals g d2) ->
  set_default_grid_list2 tech grids d1 = set_default_grid_list2 tech grids d2.
Proof.
  intros H. unfold set_default_grid_list2.
  now rewrite (fold_append_grid_ext d1 d2 grids "" H).
Qed.

Lemma set_default_grid_list2_default_through_equals_witness :
  @set_default_grid_list2 Sample.micron_format Sample.coord
    (@Technology_new Sample.ctor) [0.001; 0.005]%float 0.005%float =
  @set_default_grid_list2 Sample.micron_format Sample.coord
    (@Technology_new Sample.ctor) [0.001; 0.005]%float 0.005000001%float.
Proof.
  apply (@set_default_grid_list2_default_through_equals
           Sample.micron_format Sample.coord
           (@Technology_new Sample.ctor) [0.001; 0.005]%float
           0.005%float 0.005000001%float).
  intros g [<-|[<-|[]]]; vm_compute; reflexivity.
Defined.

(** X7.  A default grid that no listed value compares equal to has no
    effect: when no listed value compares equal to [0.0] either,
    [set_default_grid_list2] with that default gives the record that
    [set_default_grid_list] gives. *)
Theorem set_default_grid_list2_absent_default
    {fmt : tl.MicronFormat} {ct : db.coord_traits}
    (tech : Technology) (grids : list float) (default_grid : float) :
  (forall g, In g grids -> db.equals g default_grid = false) ->
  (forall g, In g grids -> db.equals g 0%float = false) ->
  set_default_grid_list2 tech grids default_grid = set_default_grid_list tech grids.
Proof.
  intros Hd H0. unfold set_default_grid_list, set_default_grid_list2.
  rewrite (fold_append_grid_ext default_grid 0%float grids ""); [reflexivity|].
  intros g Hg. now rewrite Hd, H0.
Qed.

Lemma set_default_grid_list2_absent_default_witness :
  @set_default_grid_list2 Sample.micron_format Sample.coord
    (@Technology_new Sample.ctor) [0.001; 0.005]%float 0.002%float =
  @set_default_grid_list Sample.micron_format Sample.coord
    (@Technology_new Sample.ctor) [0.001; 0.005]%float.
Proof.
  apply (@set_default_grid_list2_absent_default
           Sample.micron_format Sample.coord
           (@Technology_new Sample.ctor) [0.001; 0.005]%float 0.002%float).
  - intros g [<-|[<-|[]]]; vm_compute; reflexivity.
  - intros g [<-|[<-|[]]]; vm_compute; reflexivity.
Defined.

(** X8.  When the micron text of a listed value holds no marker character,
    the stored text is free of markers exactly when no listed value
    compares equal to the default grid; for [set_default_grid_list] that is:
    exactly when no listed value compares equal to [0.0]. *)
Theorem set_default_grid_list2_unmarked_iff
    {fmt : tl.MicronFormat} {ct : db.coord_traits}
    (tech : Technology) (grids : list float) (default_grid : float) :
  (forall g, In g grids -> markers (tl.micron_to_string g) = 0) ->
  (markers (default_grids (set_default_grid_list2 tech grids default_grid)) = 0 <->
   (forall g, In g grids -> db.equals g default_grid = false))
  /\ (markers (default_grids (set_default_grid_list tech grids)) = 0 <->
      (forall g, In g grids -> db.equals g 0%float = false)).
Proof.
  intros Htext.
  assert (Hm : forall d,
             markers (default_grids (set_default_grid_list2 tech grids d)) = 0 <->
             (forall g, In g grids -> db.equals g d = false)).
  { intros d. unfold set_default_grid_list2. cbn [default_grids set_default_grids].
    rewrite markers_fold_append_grid by exact Htext.
    rewrite <- flagged_nil_iff. simpl.
    destruct (flagged d grids); simpl; split; congruence. }
  split; [apply Hm | apply (Hm 0%float)].
Qed.

Lemma set_default_grid_list2_unmarked_iff_witness :
  markers
    (default_grids
       (@set_default_grid_list Sample.micron_format Sample.coord
          (@Technology_new Sample.ctor) [0; 0.005]%float)) = 0 <->
  (forall g, In g [0; 0.005]%float -> Sample.equals g 0%float = false).
Proof.
  apply (@set_default_grid_list2_unmarked_iff Sample.micron_format Sample.coord
           (@Technology_new Sample.ctor) [0; 0.005]%float 0%float).
  intros g [<-|[<-|[]]]; vm_compute; reflexivity.
Defined.

(** A grid list that holds [0.0]: the single-argument setter flags it. *)
Example sample_zero_grid_is_flagged :
  default_grids
    (@set_default_grid_list Sample.micron_format Sample.coord
       (@Technology_new Sample.ctor) [0; 0.005]%float) = "0.00000!,0.00500".
Proof. vm_compute. reflexivity. Qed.

(** ** The registry functions *)

(** X1.  For every implementation of the registry, [technology_names] is
    the list of the names of the records between [begin ()] and [end ()],
    in that order, one name for each record. *)
Theorem technology_names_in_registry_order
    {Reg Ptr : Type} {ops : db.Technologies Reg Ptr} (reg : Reg) :
  gsi.technology_names reg = map name (db.elements reg)
  /\ List.length (gsi.technology_names reg) = List.length (db.elements reg).
Proof.
  assert (H : forall (l : list Technology) (acc : list string),
             fold_left (fun names t => (names ++ [name t])%list) l acc =
             (acc ++ map name l)%list).
  { induction l as [|t0 l IH]; intros acc; simpl.
    - now rewrite app_nil_r.
    - rewrite IH, <- app_assoc. reflexivity. }
  assert (E : gsi.technology_names reg = map name (db.elements reg))
    by apply (H (db.elements reg) []).
  split; [exact E | now rewrite E, length_map].
Qed.

(** ** The hover event adaptor *)

Section AdaptorMore.

Context {Ev Cb : Type} {qt : QHoverEvent.methods Ev}.
Context {cbk : gsi.Callback Cb (QHoverEvent_Adaptor.t Ev Cb)}.

Import QHoverEvent_Adaptor.

Lemma slot_with_base (m : Virtual.Method) (e : Ev) (this : QHoverEvent_Adaptor.t Ev Cb) :
  Virtual.slot m (Virtual.with_base e this) = Virtual.slot m this.
Proof. destruct m; reflexivity. Qed.

(** One call whose callback cannot issue is the call on the base
    subobject. *)
Lemma call_without_callback (c : Virtual.Call) (this : QHoverEvent_Adaptor.t Ev Cb) :
  gsi.can_issue (Virtual.slot (Virtual.method_of c) this) = false ->
  Virtual.call c this =
  (fst (Virtual.base_call c (base this)),
   Virtual.with_base (snd (Virtual.base_call c (base this))) this).
Proof.
  intros Hno.
  destruct c; simpl in Hno; simpl;
    unfold isBeginEvent, isEndEvent, isUpdateEvent, setAccepted, setTimestamp, on_base,
      Virtual.with_base;
    rewrite Hno; destruct this; reflexivity.
Qed.

(** X9.  An adaptor object is a plain [QHoverEvent] over every sequence of
    calls of its virtual methods whose callbacks cannot issue: the calls
    return what the base implementations return on the base subobject, they
    leave the base subobject as the base implementations leave it, and they
    never change a callback slot. *)
Theorem adaptor_run_without_callbacks
    (calls : list Virtual.Call) (this : QHoverEvent_Adaptor.t Ev Cb) :
  (forall c, In c calls ->
     gsi.can_issue (Virtual.slot (Virtual.method_of c) this) = false) ->
  fst (Virtual.run Virtual.call calls this) =
    fst (Virtual.run Virtual.base_call calls (base this))
  /\ snd (Virtual.run Virtual.call calls this) =
     Virtual.with_base (snd (Virtual.run Virtual.base_call calls (base this))) this.
Proof.
  revert this. induction calls as [|c calls IH]; intros this H.
  - simpl. split; [reflexivity | destruct this; reflexivity].
  - cbn [Virtual.run].
    rewrite (call_without_callback c this (H c (or_introl eq_refl))).
    destruct (Virtual.base_call c (base this)) as [r e] eqn:Ec. cbn [fst snd].
    specialize (IH (Virtual.with_base e this)).
    destruct IH as [IH1 IH2].
    { intros c' Hin. rewrite slot_with_base. apply H. now right. }
    change (base (Virtual.with_base e this)) with e in IH1, IH2.
    destruct (Virtual.run Virtual.call calls (Virtual.with_base e this)) as [rs this'].
    destruct (Virtual.run Virtual.base_call calls e) as [rs' e'].
    cbn [fst snd] in *. subst. split; reflexivity.
Qed.

(** X10.  Installing a callback for one virtual method assigns the slot of
    that method and nothing else: the base subobject and the other four
    slots are as before, so every other method whose callback cannot issue
    still acts as the base implementation. *)
Theorem set_callback_isolated
    (m : Virtual.Method) (cb : Cb) (this : QHoverEvent_Adaptor.t Ev Cb) :
  base (Virtual.set_callback m this cb) = base this
  /\ Virtual.slot m (Virtual.set_callback m this cb) = cb
  /\ (forall m', m' <> m ->
        Virtual.slot m' (Virtual.set_callback m this cb) = Virtual.slot m' this)
  /\ (forall c, Virtual.method_of c <> m ->
        gsi.can_issue (Virtual.slot (Virtual.method_of c) this) = false ->
        fst (Virtual.call c (Virtual.set_callback m this cb)) =
          fst (Virtual.base_call c (base this))
        /\ base (snd (Virtual.call c (Virtual.set_callback m this cb))) =
           snd (Virtual.base_call c (base this))).
Proof.
  assert (Hbase : base (Virtual.set_callback m this cb) = base this)
    by (destruct m; reflexivity).
  assert (Hother : forall m', m' <> m ->
            Virtual.slot m' (Virtual.set_callback m this cb) = Virtual.slot m' this)
    by (intros m' Hne; destruct m, m'; try reflexivity; congruence).
  split; [exact Hbase|]. split; [destruct m; reflexivity|]. split; [exact Hother|].
  intros c Hne Hno.
  rewrite call_without_callback by (rewrite Hother by exact Hne; exact Hno).
  cbn [fst snd]. unfold Virtual.with_base. cbn [base]. now rewrite Hbase.
Qed.

End AdaptorMore.

Section AdaptorMoreExamples.

#[local] Existing Instance Sample.hover.
#[local] Existing Instance Sample.callback.

Lemma adaptor_run_without_callbacks_witness :
  fst (Virtual.run Virtual.call
         [Virtual.SetAccepted true; Virtual.IsBeginEvent;
          Virtual.SetTimestamp 7; Virtual.IsEndEvent]
         Sample.plain_adaptor) =
  fst (Virtual.run Virtual.base_call
         [Virtual.SetAccepted true; Virtual.IsBeginEvent;
          Virtual.SetTimestamp 7; Virtual.IsEndEvent]
         (QHoverEvent_Adaptor.base Sample.plain_adaptor)).
Proof.
  apply (@adaptor_run_without_callbacks _ _ Sample.hover (Sample.callback _)
           [Virtual.SetAccepted true; Virtual.IsBeginEvent;
            Virtual.SetTimestamp 7; Virtual.IsEndEvent]
           Sample.plain_adaptor).
  intros c [<-|[<-|[<-|[<-|[]]]]]; reflexivity.
Defined.

(** A script that overrides [isBeginEvent] only: [isEndEvent] and
    [setAccepted] still go to the base implementation. *)
Example sample_override_one_method :
  Virtual.run Virtual.call
    [Virtual.IsBeginEvent; Virtual.IsEndEvent; Virtual.SetAccepted true]
    (_set_callback_cbs_isBeginEvent_c0_0 Sample.plain_adaptor (Sample.Answers false)) =
  ([Some false; Some false; None],
   QHoverEvent_Adaptor.mk (Sample.mkEvent Sample.HoverEnter true 0)
     (Sample.Answers false) Sample.Empty Sample.Empty Sample.Empty Sample.Empty).
Proof. reflexivity. Qed.

End AdaptorMoreExamples.
